(** * Xaxpy: host-side dispatch of the AXPY routine

    A shallow embedding of [Xaxpy<T>::DoAxpy] (src/routines/level1/xaxpy.cc)
    and of the helpers it calls, followed by the properties of the routine:
    kernel selection, launch geometry, argument binding, validation order and
    the conversion of failures into status codes.

    Machine integers are mathematical integers ([Z]) with the wrap-around of
    [size_t] and the narrowing of [static_cast<int>] written out.  The calls
    the routine makes to its collaborators (validation, program cache, kernel
    object, queue) are recorded in a trace, so that their order, their
    arguments and their absence can be stated. *)

From stdpp Require Import base numbers option list strings gmap.

Local Open Scope string_scope.
Local Open Scope Z_scope.
Local Open Scope list_scope.

(** ** Machine integers *)

(** [size_t] is taken to be 64 bits wide; unsigned arithmetic wraps. *)
Definition size_t_bits : Z := 64.
Definition size_t_range : Z := 2 ^ size_t_bits.
Definition to_size_t (z : Z) : Z := z `mod` size_t_range.
Definition size_t_mul (a b : Z) : Z := to_size_t (a * b).
(** Division of unsigned operands truncates. *)
Definition size_t_div (a b : Z) : Z := a `quot` b.

(** [int] is 32 bits wide, two's complement. *)
Definition INT_MAX : Z := 2 ^ 31 - 1.
Definition INT_MIN : Z := - 2 ^ 31.

(** [static_cast<int>(v)] for an unsigned [v]: the low 32 bits are kept and
    read as a signed number (bit 31 is the sign). *)
Definition static_cast_int (v : Z) : Z :=
  let low := Z.land v (Z.ones 32) in
  if Z.testbit low 31 then low - 2 ^ 32 else low.

(** ** Status codes *)

(** Modelled from the spec: the [StatusCode] enumeration of the public
    header.  The data model lists success, invalid-dimension,
    invalid-buffer-size, invalid-kernel and leaves the list open; the
    remaining members are told apart by their numeric code. *)
Inductive StatusCode : Type :=
  | kSuccess
  | kInvalidDimension
  | kInvalidBufferSize
  | kInvalidKernel
  | kOtherStatus (code : Z).

(** Modelled from the spec: [ErrorIn], the helper of the routine base that
    tells a failure from [kSuccess] (a stage succeeds only with the success
    status). *)
Definition ErrorIn (s : StatusCode) : bool :=
  match s with
  | kSuccess => false
  | _ => true
  end.

(** ** Element types *)

Inductive Precision : Type :=
  | kSingle
  | kDouble
  | kComplexSingle
  | kComplexDouble.

(** The four element types the class is compiled for, as bit patterns: their
    arithmetic plays no part in the dispatch. *)
Record float : Type := { float_bits : Z }.
Record double : Type := { double_bits : Z }.
Record float2 : Type := { float2_re : float; float2_im : float }.
Record double2 : Type := { double2_re : double; double2_im : double }.

(** What the template needs of [T]: the memory type [precision_] (the
    specialisations at the top of the file) and [sizeof(T)]. *)
Class Element (T : Type) : Type :=
  { precision_ : Precision;
    sizeof : Z }.

#[global] Instance Element_float : Element float :=
  {| precision_ := kSingle; sizeof := 4 |}.
#[global] Instance Element_double : Element double :=
  {| precision_ := kDouble; sizeof := 8 |}.
#[global] Instance Element_float2 : Element float2 :=
  {| precision_ := kComplexSingle; sizeof := 8 |}.
#[global] Instance Element_double2 : Element double2 :=
  {| precision_ := kComplexDouble; sizeof := 16 |}.

(** ** Buffers and the tuning database *)

(** Modelled from the spec: [Buffer<T>] is the opaque device-memory handle of
    the execution backend; [x_buffer()] yields the raw handle and [GetSize]
    the reported capacity in bytes. *)
Record Buffer : Type :=
  { raw_handle : Z;
    GetSize : Z }.

(** [db_] maps a tuning-parameter name to its value; [db_["WGS"]] is a
    lookup.  A name that is absent reads as 0. *)
Definition db_at (db_ : gmap string Z) (name : string) : Z :=
  default 0 (db_ !! name).

(** ** Helpers of the routine base *)

(** Modelled from the spec: [IsMultiple(a, b)] of the utilities holds when
    [a] is an exact integer multiple of [b]. *)
Definition IsMultiple (a b : Z) : bool := (a `mod` b) =? 0.

(** Modelled from the spec: [CeilDiv(x, y)] of the utilities is the ceiling
    (round-up) integer division of the geometry calculator: the quotient, plus
    one when a remainder is left. *)
Definition CeilDiv (x y : Z) : Z :=
  if (x `mod` y) =? 0 then x `div` y else x `div` y + 1.

(** Modelled from the spec: [Ceil(x, y)] of the utilities rounds [x] up to
    the nearest multiple of [y]. *)
Definition Ceil (x y : Z) : Z := CeilDiv x y * y.

(** Modelled from the spec: the validation module ([TestVectorX] and
    [TestVectorY] of the routine base).  The accessed element range of a
    vector is [offset, offset + (n-1)*inc]; the check fails with
    [kInvalidDimension] when the length is zero and with [kInvalidBufferSize]
    when the last accessed element does not fit in the reported capacity.  It
    is a pure check. *)
Definition max_accessed_offset (n offset inc : Z) : Z :=
  offset + (n - 1) * inc.

Definition exceeds_capacity (n : Z) (buffer : Buffer) (offset inc data_size : Z) : bool :=
  GetSize buffer <? (max_accessed_offset n offset inc + 1) * data_size.

Definition TestVector (n : Z) (buffer : Buffer) (offset inc data_size : Z) : StatusCode :=
  if n =? 0 then kInvalidDimension
  else if exceeds_capacity n buffer offset inc data_size then kInvalidBufferSize
  else kSuccess.

Definition TestVectorX := TestVector.
Definition TestVectorY := TestVector.

(** ** Calls, backends and the host monad *)

(** A value handed to [Kernel::SetArgument]. *)
Inductive Arg (T : Type) : Type :=
  | ArgInt (v : Z)
  | ArgScalar (a : T)
  | ArgMem (handle : Z).
Arguments ArgInt {T} v.
Arguments ArgScalar {T} a.
Arguments ArgMem {T} handle.

(** The calls [DoAxpy] makes, in the order of the trace. *)
Inductive Call (T : Type) : Type :=
  | CallTestVectorX
  | CallTestVectorY
  | CallGetProgramFromCache
  | CallKernel (kernel_name : string)
  | CallSetArgument (index : nat) (a : Arg T)
  | CallRunKernel (kernel_name : string) (global local : list Z)
  | CallFinish.
Arguments CallTestVectorX {T}.
Arguments CallTestVectorY {T}.
Arguments CallGetProgramFromCache {T}.
Arguments CallKernel {T} kernel_name.
Arguments CallSetArgument {T} index a.
Arguments CallRunKernel {T} kernel_name global local.
Arguments CallFinish {T}.

(** A backend decides which calls raise an exception and which status
    [RunKernel] returns when it does not raise. *)
Record Backend (T : Type) : Type :=
  { raises : Call T -> bool;
    launch_status : string -> list Z -> list Z -> StatusCode }.
Arguments raises {T} _ _.
Arguments launch_status {T} _ _ _ _.

(** The outcome of a computation: a value, or an exception in flight. *)
Inductive Outcome (A : Type) : Type :=
  | Returned (a : A)
  | Raised.
Arguments Returned {A} a.
Arguments Raised {A}.

(** Host code threads the trace of calls and may raise. *)
Definition Host (T A : Type) : Type := list (Call T) -> Outcome A * list (Call T).

Definition ret {T A} (a : A) : Host T A := fun tr => (Returned a, tr).

Definition bind {T A B} (m : Host T A) (k : A -> Host T B) : Host T B :=
  fun tr =>
    match m tr with
    | (Returned a, tr') => k a tr'
    | (Raised, tr') => (Raised, tr')
    end.

(** [try { body } catch (...) { handler }] *)
Definition try_catch {T A} (body handler : Host T A) : Host T A :=
  fun tr =>
    match body tr with
    | (Returned a, tr') => (Returned a, tr')
    | (Raised, tr') => handler tr'
    end.

#[global] Instance Host_ret {T} : MRet (Host T) := fun A => @ret T A.
#[global] Instance Host_bind {T} : MBind (Host T) := fun A B k m => bind m k.

(** A pure check: recorded, never raises. *)
Definition check {T A} (c : Call T) (a : A) : Host T A :=
  fun tr => (Returned a, tr ++ [c]).

(** A backend call: recorded, raises when the backend says so. *)
Definition call {T A} (be : Backend T) (c : Call T) (a : A) : Host T A :=
  fun tr => (if raises be c then Raised else Returned a, tr ++ [c]).

(** The compiled program and the kernel object are opaque to the host; the
    kernel remembers the name it was created with. *)
Record Program : Type := { }.
Record Kernel : Type := { name_of : string }.

Section Routine.
Context {T : Type} `{Element T}.
Variable backend : Backend T.
Variable db_ : gmap string Z.

Definition GetProgramFromCache : Host T Program :=
  call backend CallGetProgramFromCache Build_Program.

Definition NewKernel (program : Program) (kernel_name : string) : Host T Kernel :=
  call backend (CallKernel kernel_name) {| name_of := kernel_name |}.

Definition SetArgument (kernel : Kernel) (index : nat) (a : Arg T) : Host T unit :=
  call backend (CallSetArgument index a) tt.

Definition RunKernel (kernel : Kernel) (global local : list Z) : Host T StatusCode :=
  call backend (CallRunKernel (name_of kernel) global local)
       (launch_status backend (name_of kernel) global local).

Definition Finish : Host T unit := call backend CallFinish tt.

(** ** The routine *)

(** Lines 58-60: whether the fast version can be used. *)
Definition use_fast_kernel (n x_offset x_inc y_offset y_inc : Z) : bool :=
  (x_offset =? 0) && (x_inc =? 1) &&
  (y_offset =? 0) && (y_inc =? 1) &&
  IsMultiple n (size_t_mul (size_t_mul (db_at db_ "WGS") (db_at db_ "WPT")) (db_at db_ "VW")).

(** Line 63. *)
Definition kernel_name_of (use_fast : bool) : string :=
  if use_fast then "XaxpyFast" else "Xaxpy".

(** Lines 71-86: the kernel arguments. *)
Definition set_arguments (use_fast : bool) (kernel : Kernel) (n : Z) (alpha : T)
    (x_buffer : Buffer) (x_offset x_inc : Z)
    (y_buffer : Buffer) (y_offset y_inc : Z) : Host T unit :=
  if use_fast then
    SetArgument kernel 0 (ArgInt (static_cast_int n)) ;;
    SetArgument kernel 1 (ArgScalar alpha) ;;
    SetArgument kernel 2 (ArgMem (raw_handle x_buffer)) ;;
    SetArgument kernel 3 (ArgMem (raw_handle y_buffer))
  else
    SetArgument kernel 0 (ArgInt (static_cast_int n)) ;;
    SetArgument kernel 1 (ArgScalar alpha) ;;
    SetArgument kernel 2 (ArgMem (raw_handle x_buffer)) ;;
    SetArgument kernel 3 (ArgInt (static_cast_int x_offset)) ;;
    SetArgument kernel 4 (ArgInt (static_cast_int x_inc)) ;;
    SetArgument kernel 5 (ArgMem (raw_handle y_buffer)) ;;
    SetArgument kernel 6 (ArgInt (static_cast_int y_offset)) ;;
    SetArgument kernel 7 (ArgInt (static_cast_int y_inc)).

(** Lines 89-99: the launch.  [n_ceiled] is a [size_t]: a rounded length of
    2^64 or more wraps. *)
Definition launch (use_fast : bool) (kernel : Kernel) (n : Z) : Host T StatusCode :=
  if use_fast then
    let global := [CeilDiv n (size_t_mul (db_at db_ "WPT") (db_at db_ "VW"))] in
    let local := [db_at db_ "WGS"] in
    RunKernel kernel global local
  else
    let n_ceiled := to_size_t (Ceil n (size_t_mul (db_at db_ "WGS") (db_at db_ "WPT"))) in
    let global := [size_t_div n_ceiled (db_at db_ "WPT")] in
    let local := [db_at db_ "WGS"] in
    RunKernel kernel global local.

(** Lines 44-108. *)
Definition DoAxpy (n : Z) (alpha : T)
    (x_buffer : Buffer) (x_offset x_inc : Z)
    (y_buffer : Buffer) (y_offset y_inc : Z) : Host T StatusCode :=
  if n =? 0 then mret kInvalidDimension else
  status ← check CallTestVectorX (TestVectorX n x_buffer x_offset x_inc sizeof) ;
  if ErrorIn status then mret status else
  status ← check CallTestVectorY (TestVectorY n y_buffer y_offset y_inc sizeof) ;
  if ErrorIn status then mret status else
  let use_fast := use_fast_kernel n x_offset x_inc y_offset y_inc in
  let kernel_name := kernel_name_of use_fast in
  try_catch
    (program ← GetProgramFromCache ;
     kernel ← NewKernel program kernel_name ;
     set_arguments use_fast kernel n alpha x_buffer x_offset x_inc y_buffer y_offset y_inc ;;
     status ← launch use_fast kernel n ;
     if ErrorIn status then mret status else
     Finish ;;
     mret kSuccess)
    (mret kInvalidKernel).

(** One invocation, from an empty trace. *)
Definition run (n : Z) (alpha : T)
    (x_buffer : Buffer) (x_offset x_inc : Z)
    (y_buffer : Buffer) (y_offset y_inc : Z) : Outcome StatusCode * list (Call T) :=
  DoAxpy n alpha x_buffer x_offset x_inc y_buffer y_offset y_inc [].

End Routine.

(** ** Vocabulary of the statements *)

(** The tuning parameters are positive and their product is representable:
    the products the routine forms in [size_t] are then exact. *)
Definition tuned (db_ : gmap string Z) : Prop :=
  0 < db_at db_ "WGS" /\ 0 < db_at db_ "WPT" /\ 0 < db_at db_ "VW" /\
  db_at db_ "WGS" * db_at db_ "WPT" * db_at db_ "VW" < size_t_range.

(** The condition under which the fast kernel is legal. *)
Definition fast_path_legal (db_ : gmap string Z) (n x_offset x_inc y_offset y_inc : Z) : Prop :=
  x_offset = 0 /\ x_inc = 1 /\ y_offset = 0 /\ y_inc = 1 /\
  (db_at db_ "WGS" * db_at db_ "WPT" * db_at db_ "VW" | n).

(** Validation calls are pure checks; every other call goes to the backend. *)
Definition is_backend_call {T} (c : Call T) : bool :=
  match c with
  | CallTestVectorX | CallTestVectorY => false
  | _ => true
  end.

(** The arguments bound in a trace, with their positions, in order. *)
Definition bound_arguments {T} (tr : list (Call T)) : list (nat * Arg T) :=
  omap (fun c => match c with
                 | CallSetArgument index a => Some (index, a)
                 | _ => None
                 end) tr.

(** The launch was reached in a trace. *)
Definition launched {T} (tr : list (Call T)) : Prop :=
  exists kernel_name global local, CallRunKernel kernel_name global local ∈ tr.

(** The argument lists of the two kernel variants, as the routine is
    documented to bind them. *)
Definition fast_arguments {T} (n : Z) (alpha : T) (x_buffer y_buffer : Buffer)
    : list (nat * Arg T) :=
  [ (0%nat, ArgInt (static_cast_int n));
    (1%nat, ArgScalar alpha);
    (2%nat, ArgMem (raw_handle x_buffer));
    (3%nat, ArgMem (raw_handle y_buffer)) ].

Definition generic_arguments {T} (n : Z) (alpha : T)
    (x_buffer : Buffer) (x_offset x_inc : Z)
    (y_buffer : Buffer) (y_offset y_inc : Z) : list (nat * Arg T) :=
  [ (0%nat, ArgInt (static_cast_int n));
    (1%nat, ArgScalar alpha);
    (2%nat, ArgMem (raw_handle x_buffer));
    (3%nat, ArgInt (static_cast_int x_offset));
    (4%nat, ArgInt (static_cast_int x_inc));
    (5%nat, ArgMem (raw_handle y_buffer));
    (6%nat, ArgInt (static_cast_int y_offset));
    (7%nat, ArgInt (static_cast_int y_inc)) ].

(** A failure of the backend in a trace: a backend call that raised, or a
    launch that reported an error status. *)
Definition failure_in {T} (backend : Backend T) (tr : list (Call T)) : Prop :=
  (exists c, c ∈ tr /\ is_backend_call c = true /\ raises backend c = true) \/
  (exists kernel_name global local,
      CallRunKernel kernel_name global local ∈ tr /\
      ErrorIn (launch_status backend kernel_name global local) = true).

(** Running a list of backend calls up to the first one that raises: whether
    all went through, and the calls made. *)
Fixpoint attempt {T} (backend : Backend T) (cs : list (Call T)) : bool * list (Call T) :=
  match cs with
  | [] => (true, [])
  | c :: cs' =>
      if raises backend c then (false, [c])
      else let r := attempt backend cs' in (r.1, c :: r.2)
  end.

(** The calls of the try block before the launch, in program order. *)
Definition setup_calls {T} (use_fast : bool) (n : Z) (alpha : T)
    (x_buffer : Buffer) (x_offset x_inc : Z)
    (y_buffer : Buffer) (y_offset y_inc : Z) : list (Call T) :=
  CallGetProgramFromCache :: CallKernel (kernel_name_of use_fast) ::
  map (fun ia => CallSetArgument ia.1 ia.2)
      (if use_fast then fast_arguments n alpha x_buffer y_buffer
       else generic_arguments n alpha x_buffer x_offset x_inc y_buffer y_offset y_inc).

(** The launch itself, with the geometry of the selected variant. *)
Definition launch_global (db_ : gmap string Z) (use_fast : bool) (n : Z) : list Z :=
  if use_fast
  then [CeilDiv n (size_t_mul (db_at db_ "WPT") (db_at db_ "VW"))]
  else [size_t_div (to_size_t (Ceil n (size_t_mul (db_at db_ "WGS") (db_at db_ "WPT"))))
          (db_at db_ "WPT")].

Definition launch_call {T} (db_ : gmap string Z) (use_fast : bool) (n : Z) : Call T :=
  CallRunKernel (kernel_name_of use_fast) (launch_global db_ use_fast n) [db_at db_ "WGS"].

(** ** Concrete invocations *)

(** A tuning with tile granularity 256, as in the end-to-end scenarios. *)
Definition db_256 : gmap string Z :=
  <["WGS" := 64]> (<["WPT" := 2]> (<["VW" := 2]> ∅)).


(** The largest length a [size_t] holds. *)
Definition SIZE_MAX : Z := size_t_range - 1.

(** A buffer for a vector with a large offset and increment. *)
Definition x_16t : Buffer := {| raw_handle := 1; GetSize := 2 ^ 44 |}.

(** A backend on which every call goes through. *)
Definition sound_backend : Backend float :=
  {| raises := fun _ => false; launch_status := fun _ _ _ => kSuccess |}.

(** A backend whose launch reports an error status of its own. *)
Definition failing_launch_backend : Backend float :=
  {| raises := fun _ => false; launch_status := fun _ _ _ => kOtherStatus (-2046) |}.

(** A backend without a compiled program. *)
Definition no_program_backend : Backend float :=
  {| raises := fun c => match c with CallGetProgramFromCache => true | _ => false end;
     launch_status := fun _ _ _ => kSuccess |}.

Definition x_8k : Buffer := {| raw_handle := 1; GetSize := 8192 |}.
Definition y_8k : Buffer := {| raw_handle := 2; GetSize := 8192 |}.
Definition y_small : Buffer := {| raw_handle := 3; GetSize := 16 |}.
Definition one : float := {| float_bits := 1065353216 |}.

(** ** Arithmetic of the helpers *)

Lemma size_t_mul_exact (a b : Z) :
  0 <= a * b < size_t_range -> size_t_mul a b = a * b.
Proof.
  intros Hab. unfold size_t_mul, to_size_t. now apply Z.mod_small.
Qed.

Lemma to_size_t_small (z : Z) : 0 <= z < size_t_range -> to_size_t z = z.
Proof. intros Hz. unfold to_size_t. now apply Z.mod_small. Qed.

Lemma IsMultiple_divide (a b : Z) : IsMultiple a b = true <-> (b | a).
Proof.
  unfold IsMultiple. rewrite Z.eqb_eq.
  destruct (decide (b = 0)) as [->|Hb].
  - rewrite Z.mod_0_r. split.
    + intros ->. apply Z.divide_0_r.
    + intros [q ->]. lia.
  - now apply Z.mod_divide.
Qed.

Lemma CeilDiv_bounds (x y : Z) :
  0 < y -> (CeilDiv x y - 1) * y < x <= CeilDiv x y * y.
Proof.
  intros Hy. unfold CeilDiv.
  pose proof (Z.div_mod x y ltac:(lia)) as Hdm.
  pose proof (Z.mod_pos_bound x y Hy) as Hm.
  destruct (Z.eqb_spec (x `mod` y) 0) as [H0|H0]; nia.
Qed.

Lemma CeilDiv_unique (x y q : Z) :
  0 < y -> (q - 1) * y < x <= q * y -> CeilDiv x y = q.
Proof.
  intros Hy Hq. pose proof (CeilDiv_bounds x y Hy). nia.
Qed.

Lemma CeilDiv_exact (q y : Z) : 0 < y -> CeilDiv (q * y) y = q.
Proof.
  intros Hy. apply CeilDiv_unique; [done | nia].
Qed.

Lemma Ceil_multiple (x y : Z) : (y | Ceil x y).
Proof. exists (CeilDiv x y). reflexivity. Qed.

Lemma Ceil_bounds (x y : Z) : 0 < y -> x <= Ceil x y < x + y.
Proof.
  intros Hy. unfold Ceil. pose proof (CeilDiv_bounds x y Hy). lia.
Qed.

(** [Ceil x y] is the least multiple of [y] that is not below [x]. *)
Lemma Ceil_least (x y m : Z) : 0 < y -> (y | m) -> x <= m -> Ceil x y <= m.
Proof.
  intros Hy [q ->] Hx. unfold Ceil.
  pose proof (CeilDiv_bounds x y Hy) as [Hlo _].
  assert (CeilDiv x y - 1 < q) by (apply Z.mul_lt_mono_pos_r with y; lia).
  apply Z.mul_le_mono_nonneg_r; lia.
Qed.

(** The signed reading of the low 32 bits, in arithmetic form. *)
Lemma static_cast_int_mod (v : Z) :
  static_cast_int v =
    if v `mod` 2 ^ 32 <? 2 ^ 31 then v `mod` 2 ^ 32 else v `mod` 2 ^ 32 - 2 ^ 32.
Proof.
  unfold static_cast_int. cbv zeta.
  rewrite Z.land_ones by lia.
  pose proof (Z.mod_pos_bound v (2 ^ 32) ltac:(lia)) as Hm.
  set (low := v `mod` 2 ^ 32) in *.
  rewrite (Z.testbit_eqb low 31) by lia.
  destruct (Z.ltb_spec low (2 ^ 31)) as [Hlt|Hge].
  - rewrite Z.div_small by lia. reflexivity.
  - assert (low `div` 2 ^ 31 = 1) as ->
      by (symmetry; apply Z.div_unique with (low - 2 ^ 31); lia).
    reflexivity.
Qed.

(** ** The shape of an invocation *)

Section Shape.
Context {T : Type} `{Element T}.
Variable backend : Backend T.
Variable db_ : gmap string Z.

Lemma attempt_prefix (cs : list (Call T)) : (attempt backend cs).2 `prefix_of` cs.
Proof.
  induction cs as [|c cs IH]; simpl; [done|].
  destruct (raises backend c); simpl.
  - exists cs. reflexivity.
  - by apply prefix_cons.
Qed.

Lemma attempt_true (cs : list (Call T)) :
  (attempt backend cs).1 = true ->
  (attempt backend cs).2 = cs /\ forall c, c ∈ cs -> raises backend c = false.
Proof.
  induction cs as [|c cs IH]; simpl.
  - intros _. split; [done|]. intros c Hc. by apply elem_of_nil in Hc.
  - destruct (raises backend c) eqn:Hc; simpl; [done|].
    intros Hok. destruct (IH Hok) as [-> Hall]. split; [done|].
    intros c' [->|Hc']%elem_of_cons; auto.
Qed.

(** What one invocation that passes validation does: the calls of the try
    block are made in order up to the first that raises; a launch that
    reports an error ends the invocation with that status. *)
Lemma run_validated (n : Z) (alpha : T)
    (x_buffer : Buffer) (x_offset x_inc : Z)
    (y_buffer : Buffer) (y_offset y_inc : Z) :
  n <> 0 ->
  ErrorIn (TestVectorX n x_buffer x_offset x_inc sizeof) = false ->
  ErrorIn (TestVectorY n y_buffer y_offset y_inc sizeof) = false ->
  let use_fast := use_fast_kernel db_ n x_offset x_inc y_offset y_inc in
  let setup := attempt backend
                 (setup_calls use_fast n alpha x_buffer x_offset x_inc y_buffer y_offset y_inc) in
  let rk : Call T := launch_call db_ use_fast n in
  let status := launch_status backend (kernel_name_of use_fast)
                  (launch_global db_ use_fast n) [db_at db_ "WGS"] in
  run backend db_ n alpha x_buffer x_offset x_inc y_buffer y_offset y_inc =
    if setup.1 then
      if raises backend rk then
        (Returned kInvalidKernel, CallTestVectorX :: CallTestVectorY :: setup.2 ++ [rk])
      else if ErrorIn status then
        (Returned status, CallTestVectorX :: CallTestVectorY :: setup.2 ++ [rk])
      else if raises backend CallFinish then
        (Returned kInvalidKernel,
         CallTestVectorX :: CallTestVectorY :: setup.2 ++ [rk; CallFinish])
      else
        (Returned kSuccess,
         CallTestVectorX :: CallTestVectorY :: setup.2 ++ [rk; CallFinish])
    else (Returned kInvalidKernel, CallTestVectorX :: CallTestVectorY :: setup.2).
Proof.
  intros Hn Hx Hy. cbv zeta.
  unfold run, DoAxpy. rewrite (proj2 (Z.eqb_neq n 0) Hn).
  unfold mbind, mret, Host_bind, Host_ret, bind, ret, check, try_catch at 1.
  rewrite Hx, Hy.
  unfold launch_call, launch_global, setup_calls, set_arguments, launch,
    GetProgramFromCache, NewKernel, SetArgument, RunKernel, Finish, call,
    fast_arguments, generic_arguments.
  destruct (use_fast_kernel db_ n x_offset x_inc y_offset y_inc); simpl;
    repeat (match goal with
            | |- context [raises backend ?c] => destruct (raises backend c); simpl
            | |- context [ErrorIn ?s] => destruct (ErrorIn s); simpl
            end); reflexivity.
Qed.

Lemma run_zero (alpha : T)
    (x_buffer : Buffer) (x_offset x_inc : Z)
    (y_buffer : Buffer) (y_offset y_inc : Z) :
  run backend db_ 0 alpha x_buffer x_offset x_inc y_buffer y_offset y_inc =
    (Returned kInvalidDimension, []).
Proof. reflexivity. Qed.

Lemma run_x_invalid (n : Z) (alpha : T)
    (x_buffer : Buffer) (x_offset x_inc : Z)
    (y_buffer : Buffer) (y_offset y_inc : Z) :
  n <> 0 ->
  ErrorIn (TestVectorX n x_buffer x_offset x_inc sizeof) = true ->
  run backend db_ n alpha x_buffer x_offset x_inc y_buffer y_offset y_inc =
    (Returned (TestVectorX n x_buffer x_offset x_inc sizeof), [CallTestVectorX]).
Proof.
  intros Hn Hx. unfold run, DoAxpy. rewrite (proj2 (Z.eqb_neq n 0) Hn).
  unfold mbind, mret, Host_bind, Host_ret, bind, ret, check.
  by rewrite Hx.
Qed.

Lemma run_y_invalid (n : Z) (alpha : T)
    (x_buffer : Buffer) (x_offset x_inc : Z)
    (y_buffer : Buffer) (y_offset y_inc : Z) :
  n <> 0 ->
  ErrorIn (TestVectorX n x_buffer x_offset x_inc sizeof) = false ->
  ErrorIn (TestVectorY n y_buffer y_offset y_inc sizeof) = true ->
  run backend db_ n alpha x_buffer x_offset x_inc y_buffer y_offset y_inc =
    (Returned (TestVectorY n y_buffer y_offset y_inc sizeof),
     [CallTestVectorX; CallTestVectorY]).
Proof.
  intros Hn Hx Hy. unfold run, DoAxpy. rewrite (proj2 (Z.eqb_neq n 0) Hn).
  unfold mbind, mret, Host_bind, Host_ret, bind, ret, check.
  by rewrite Hx, Hy.
Qed.

(** The calls an invocation can make, in program order. *)
Lemma run_script_prefix (n : Z) (alpha : T)
    (x_buffer : Buffer) (x_offset x_inc : Z)
    (y_buffer : Buffer) (y_offset y_inc : Z) :
  let use_fast := use_fast_kernel db_ n x_offset x_inc y_offset y_inc in
  (run backend db_ n alpha x_buffer x_offset x_inc y_buffer y_offset y_inc).2
    `prefix_of`
  CallTestVectorX :: CallTestVectorY ::
    setup_calls use_fast n alpha x_buffer x_offset x_inc y_buffer y_offset y_inc ++
    [launch_call db_ use_fast n; CallFinish].
Proof.
  cbv zeta.
  destruct (decide (n = 0)) as [->|Hn].
  { rewrite run_zero. apply prefix_nil. }
  destruct (ErrorIn (TestVectorX n x_buffer x_offset x_inc sizeof)) eqn:Hx.
  { rewrite run_x_invalid by done. simpl. apply prefix_cons, prefix_nil. }
  destruct (ErrorIn (TestVectorY n y_buffer y_offset y_inc sizeof)) eqn:Hy.
  { rewrite run_y_invalid by done. simpl. do 2 apply prefix_cons. apply prefix_nil. }
  rewrite run_validated by done. cbv zeta.
  set (cs := setup_calls _ _ _ _ _ _ _ _ _).
  pose proof (attempt_prefix cs) as Hpre.
  destruct (attempt backend cs).1 eqn:Hok.
  - destruct (attempt_true cs Hok) as [-> _].
    repeat case_match; cbn [snd]; do 2 apply prefix_cons;
      first [ reflexivity | apply prefix_app, prefix_cons, prefix_nil ].
  - cbn [snd]. do 2 apply prefix_cons. by apply prefix_app_r.
Qed.

Lemma setup_calls_no_launch (use_fast : bool) (n : Z) (alpha : T)
    (x_buffer : Buffer) (x_offset x_inc : Z)
    (y_buffer : Buffer) (y_offset y_inc : Z) (c : Call T) :
  c ∈ setup_calls use_fast n alpha x_buffer x_offset x_inc y_buffer y_offset y_inc ->
  match c with
  | CallGetProgramFromCache | CallKernel _ | CallSetArgument _ _ => True
  | _ => False
  end.
Proof.
  unfold setup_calls. intros [->|[->|Hc]%elem_of_cons]%elem_of_cons; [done..|].
  apply list_elem_of_fmap in Hc as (ia & -> & _). done.
Qed.

(** An invocation that reaches the launch has made every call before it,
    launches once, with the geometry of [launch_call], and ends according to
    the launch and the final wait. *)
Lemma run_launched (n : Z) (alpha : T)
    (x_buffer : Buffer) (x_offset x_inc : Z)
    (y_buffer : Buffer) (y_offset y_inc : Z)
    (kernel_name : string) (global local : list Z) :
  let use_fast := use_fast_kernel db_ n x_offset x_inc y_offset y_inc in
  let before := CallTestVectorX :: CallTestVectorY ::
      setup_calls use_fast n alpha x_buffer x_offset x_inc y_buffer y_offset y_inc in
  let rk : Call T := launch_call db_ use_fast n in
  let status := launch_status backend (kernel_name_of use_fast)
                  (launch_global db_ use_fast n) [db_at db_ "WGS"] in
  @CallRunKernel T kernel_name global local ∈
    (run backend db_ n alpha x_buffer x_offset x_inc y_buffer y_offset y_inc).2 ->
  @CallRunKernel T kernel_name global local = rk /\
  run backend db_ n alpha x_buffer x_offset x_inc y_buffer y_offset y_inc =
    if raises backend rk then (Returned kInvalidKernel, before ++ [rk])
    else if ErrorIn status then (Returned status, before ++ [rk])
    else if raises backend CallFinish then (Returned kInvalidKernel, before ++ [rk; CallFinish])
    else (Returned kSuccess, before ++ [rk; CallFinish]).
Proof.
  cbv zeta.
  destruct (decide (n = 0)) as [->|Hn].
  { rewrite run_zero. simpl. by intros ?%elem_of_nil. }
  destruct (ErrorIn (TestVectorX n x_buffer x_offset x_inc sizeof)) eqn:Hx.
  { rewrite run_x_invalid by done. simpl. by intros ?%list_elem_of_singleton. }
  destruct (ErrorIn (TestVectorY n y_buffer y_offset y_inc sizeof)) eqn:Hy.
  { rewrite run_y_invalid by done. simpl.
    by intros [?|?%list_elem_of_singleton]%elem_of_cons. }
  rewrite run_validated by done. cbv zeta.
  set (cs := setup_calls _ _ _ _ _ _ _ _ _).
  pose proof (attempt_prefix cs) as Hpre.
  assert (forall tail, @CallRunKernel T kernel_name global local ∈
            CallTestVectorX :: CallTestVectorY :: cs ++ tail ->
            @CallRunKernel T kernel_name global local ∈ tail) as Hskip.
  { intros tail [?|[?|Hc]%elem_of_cons]%elem_of_cons; [done..|].
    apply elem_of_app in Hc as [Hc|Hc]; [|done].
    by apply setup_calls_no_launch in Hc. }
  destruct (attempt backend cs).1 eqn:Hok.
  - destruct (attempt_true cs Hok) as [-> _].
    intros Hin. split; [|reflexivity]. revert Hin.
    repeat case_match; cbn [snd]; intros Hin%Hskip.
    all: apply elem_of_cons in Hin as [Hin|Hin]; [done|].
    all: try (by apply elem_of_nil in Hin).
    all: by apply list_elem_of_singleton in Hin.
  - cbn [snd]. intros Hin. exfalso.
    assert (@CallRunKernel T kernel_name global local ∈ cs) as Hc.
    { apply elem_of_cons in Hin as [?|Hin]; [done|].
      apply elem_of_cons in Hin as [?|Hin]; [done|].
      destruct Hpre as [k ->]. apply elem_of_app. by left. }
    by apply setup_calls_no_launch in Hc.
Qed.

(** The arguments bound by the calls of an invocation, read off its script. *)
Lemma bound_arguments_script (use_fast : bool) (n : Z) (alpha : T)
    (x_buffer : Buffer) (x_offset x_inc : Z)
    (y_buffer : Buffer) (y_offset y_inc : Z) (tail : list (Call T)) :
  bound_arguments
    (CallTestVectorX :: CallTestVectorY ::
       setup_calls use_fast n alpha x_buffer x_offset x_inc y_buffer y_offset y_inc ++ tail) =
    (if use_fast then fast_arguments n alpha x_buffer y_buffer
     else generic_arguments n alpha x_buffer x_offset x_inc y_buffer y_offset y_inc) ++
    bound_arguments tail.
Proof. destruct use_fast; reflexivity. Qed.

Lemma bound_arguments_prefix (l1 l2 : list (Call T)) :
  l1 `prefix_of` l2 -> bound_arguments l1 `prefix_of` bound_arguments l2.
Proof.
  intros [k ->]. unfold bound_arguments. rewrite omap_app. by eexists.
Qed.

(** The only kernel an invocation creates is the selected one. *)
Lemma run_kernel_name (n : Z) (alpha : T)
    (x_buffer : Buffer) (x_offset x_inc : Z)
    (y_buffer : Buffer) (y_offset y_inc : Z) (kernel_name : string) :
  @CallKernel T kernel_name ∈
    (run backend db_ n alpha x_buffer x_offset x_inc y_buffer y_offset y_inc).2 ->
  kernel_name = kernel_name_of (use_fast_kernel db_ n x_offset x_inc y_offset y_inc).
Proof.
  intros Hin.
  destruct (run_script_prefix n alpha x_buffer x_offset x_inc y_buffer y_offset y_inc)
    as [k Hk].
  assert (@CallKernel T kernel_name ∈
            (run backend db_ n alpha x_buffer x_offset x_inc y_buffer y_offset y_inc).2 ++ k)
    as Hin' by (apply elem_of_app; by left).
  rewrite <- Hk in Hin'. clear Hin Hk.
  apply elem_of_cons in Hin' as [?|Hin']; [done|].
  apply elem_of_cons in Hin' as [?|Hin']; [done|].
  apply elem_of_app in Hin' as [Hin'|Hin'].
  - unfold setup_calls in Hin'.
    apply elem_of_cons in Hin' as [?|Hin']; [done|].
    apply elem_of_cons in Hin' as [Heq|Hin']; [by injection Heq|].
    by apply list_elem_of_fmap in Hin' as (ia & ? & _).
  - apply elem_of_cons in Hin' as [?|Hin']; [done|].
    by apply list_elem_of_singleton in Hin'.
Qed.

(** Once validation has passed and the program is there, the kernel is
    created. *)
Lemma run_kernel_created (n : Z) (alpha : T)
    (x_buffer : Buffer) (x_offset x_inc : Z)
    (y_buffer : Buffer) (y_offset y_inc : Z) :
  n <> 0 ->
  ErrorIn (TestVectorX n x_buffer x_offset x_inc sizeof) = false ->
  ErrorIn (TestVectorY n y_buffer y_offset y_inc sizeof) = false ->
  raises backend CallGetProgramFromCache = false ->
  @CallKernel T (kernel_name_of (use_fast_kernel db_ n x_offset x_inc y_offset y_inc)) ∈
    (run backend db_ n alpha x_buffer x_offset x_inc y_buffer y_offset y_inc).2.
Proof.
  intros Hn Hx Hy Hprogram. rewrite run_validated by done. cbv zeta.
  set (use_fast := use_fast_kernel db_ n x_offset x_inc y_offset y_inc).
  set (cs := setup_calls _ _ _ _ _ _ _ _ _).
  assert (@CallKernel T (kernel_name_of use_fast) ∈ (attempt backend cs).2) as Hin.
  { subst cs. unfold setup_calls. cbn [attempt]. rewrite Hprogram. cbn [snd].
    apply elem_of_cons; right.
    destruct (raises backend (CallKernel (kernel_name_of use_fast))); cbn [snd];
      apply elem_of_cons; by left. }
  clearbody cs.
  assert (forall tail, @CallKernel T (kernel_name_of use_fast) ∈
            CallTestVectorX :: CallTestVectorY :: (attempt backend cs).2 ++ tail) as Hin'.
  { intros tail. do 2 (apply elem_of_cons; right). apply elem_of_app. by left. }
  repeat case_match; cbn [snd]; try apply Hin'.
  do 2 (apply elem_of_cons; right). done.
Qed.

End Shape.

(** ** Exact products under a tuned database *)

Lemma tuned_tile (db_ : gmap string Z) :
  tuned db_ ->
  size_t_mul (size_t_mul (db_at db_ "WGS") (db_at db_ "WPT")) (db_at db_ "VW") =
    db_at db_ "WGS" * db_at db_ "WPT" * db_at db_ "VW".
Proof.
  intros (Hwgs & Hwpt & Hvw & Hfit).
  assert (0 <= db_at db_ "WGS" * db_at db_ "WPT" < size_t_range) by nia.
  rewrite (size_t_mul_exact (db_at db_ "WGS")) by done.
  apply size_t_mul_exact. nia.
Qed.

Lemma tuned_group (db_ : gmap string Z) :
  tuned db_ ->
  size_t_mul (db_at db_ "WGS") (db_at db_ "WPT") = db_at db_ "WGS" * db_at db_ "WPT".
Proof.
  intros (Hwgs & Hwpt & Hvw & Hfit). apply size_t_mul_exact. nia.
Qed.

Lemma tuned_thread (db_ : gmap string Z) :
  tuned db_ ->
  size_t_mul (db_at db_ "WPT") (db_at db_ "VW") = db_at db_ "WPT" * db_at db_ "VW".
Proof.
  intros (Hwgs & Hwpt & Hvw & Hfit). apply size_t_mul_exact. nia.
Qed.

Lemma use_fast_kernel_legal (db_ : gmap string Z) (n x_offset x_inc y_offset y_inc : Z) :
  tuned db_ ->
  use_fast_kernel db_ n x_offset x_inc y_offset y_inc = true <->
  fast_path_legal db_ n x_offset x_inc y_offset y_inc.
Proof.
  intros Ht. unfold use_fast_kernel, fast_path_legal.
  rewrite (tuned_tile db_ Ht), !andb_true_iff, !Z.eqb_eq, IsMultiple_divide.
  tauto.
Qed.

(** ** Properties of the routine *)

Section Properties.
Context {T : Type} `{Element T}.
Variable backend : Backend T.
Variable db_ : gmap string Z.
Variables (n : Z) (alpha : T).
Variables (x_buffer : Buffer) (x_offset x_inc : Z).
Variables (y_buffer : Buffer) (y_offset y_inc : Z).

Let outcome : Outcome StatusCode * list (Call T) :=
  run backend db_ n alpha x_buffer x_offset x_inc y_buffer y_offset y_inc.
Let use_fast : bool := use_fast_kernel db_ n x_offset x_inc y_offset y_inc.

(** C3.  A zero-length invocation returns [kInvalidDimension] and makes no
    call at all: no validation of the buffers, no program retrieval, no
    argument binding, no launch. *)
Theorem zero_length_invalid_dimension :
  run backend db_ 0 alpha x_buffer x_offset x_inc y_buffer y_offset y_inc =
    (Returned kInvalidDimension, []).
Proof. apply run_zero. Qed.

(** C4.  With a non-zero length, the x operand is validated first and the y
    operand second; the first failing check ends the invocation with its own
    status, and no check runs after it.  An operand whose last accessed
    element lies beyond its buffer's capacity makes the routine return
    [kInvalidBufferSize] after validation calls only: kernel selection,
    program retrieval and argument binding are never reached. *)
Theorem validation_order :
  0 < n ->
  let status_x := TestVectorX n x_buffer x_offset x_inc sizeof in
  let status_y := TestVectorY n y_buffer y_offset y_inc sizeof in
  (ErrorIn status_x = true ->
     outcome = (Returned status_x, [CallTestVectorX])) /\
  (ErrorIn status_x = false -> ErrorIn status_y = true ->
     outcome = (Returned status_y, [CallTestVectorX; CallTestVectorY])) /\
  (ErrorIn status_x = false -> ErrorIn status_y = false ->
     exists calls, outcome.2 = CallTestVectorX :: CallTestVectorY :: calls /\
                   forall c, c ∈ calls -> is_backend_call c = true) /\
  (exceeds_capacity n x_buffer x_offset x_inc sizeof = true \/
   exceeds_capacity n y_buffer y_offset y_inc sizeof = true ->
     outcome.1 = Returned kInvalidBufferSize /\
     forall c, c ∈ outcome.2 -> is_backend_call c = false).
Proof.
  intros Hn. cbv zeta. subst outcome.
  assert (n <> 0) as Hn0 by lia.
  split; [|split; [|split]].
  - intros Hx. by apply run_x_invalid.
  - intros Hx Hy. by apply run_y_invalid.
  - intros Hx Hy.
    pose proof (run_script_prefix backend db_ n alpha x_buffer x_offset x_inc
                  y_buffer y_offset y_inc) as Hpre.
    cbv zeta in Hpre. rewrite run_validated in * by done. cbv zeta in *.
    set (cs := setup_calls _ _ _ _ _ _ _ _ _) in *.
    set (rk := launch_call _ _ _) in *.
    assert (forall c : Call T, c ∈ cs ++ [rk; CallFinish] -> is_backend_call c = true)
      as Hbackend.
    { intros c [Hc|Hc]%elem_of_app.
      - apply setup_calls_no_launch in Hc. by destruct c.
      - apply elem_of_cons in Hc as [->|Hc]; [done|].
        by apply list_elem_of_singleton in Hc as ->. }
    clearbody cs rk.
    assert (forall r : Outcome StatusCode * list (Call T),
              r.2 `prefix_of` CallTestVectorX :: CallTestVectorY :: cs ++ [rk; CallFinish] ->
              (exists tl, r.2 = CallTestVectorX :: CallTestVectorY :: tl) ->
              exists calls, r.2 = CallTestVectorX :: CallTestVectorY :: calls /\
                            forall c, c ∈ calls -> is_backend_call c = true) as Hgen.
    { intros r [k Hk] [tl Htl]. exists tl. split; [done|].
      rewrite Htl in Hk. simpl in Hk. injection Hk as Hk.
      intros c Hc. apply Hbackend. rewrite Hk. apply elem_of_app. by left. }
    apply Hgen; [done|]. repeat case_match; cbn [snd]; eauto.
  - destruct (exceeds_capacity n x_buffer x_offset x_inc sizeof) eqn:Hx.
    + intros _. rewrite run_x_invalid; unfold TestVectorX, TestVector;
        rewrite ?(proj2 (Z.eqb_neq n 0) Hn0), ?Hx; try done.
      split; [done|]. by intros c ->%list_elem_of_singleton.
    + intros [?|Hy]; [done|].
      rewrite run_y_invalid; unfold TestVectorX, TestVectorY, TestVector;
        rewrite ?(proj2 (Z.eqb_neq n 0) Hn0), ?Hx, ?Hy; try done.
      split; [done|].
      by intros c [->| ->%list_elem_of_singleton]%elem_of_cons.
Qed.

(** C1.  The kernel selector chooses the fast variant exactly when both
    offsets are 0, both increments are 1 and [n] is an exact multiple of
    WGS*WPT*VW, and the generic variant in every other case: the selection
    flag is true exactly then, the one kernel an invocation creates after
    validation carries the selected name, and it is created as soon as the
    program has been retrieved. *)
Theorem kernel_selection :
  tuned db_ ->
  (use_fast = true <-> fast_path_legal db_ n x_offset x_inc y_offset y_inc) /\
  (forall kernel_name, @CallKernel T kernel_name ∈ outcome.2 ->
     (fast_path_legal db_ n x_offset x_inc y_offset y_inc /\ kernel_name = "XaxpyFast") \/
     (~ fast_path_legal db_ n x_offset x_inc y_offset y_inc /\ kernel_name = "Xaxpy")) /\
  (n <> 0 ->
   ErrorIn (TestVectorX n x_buffer x_offset x_inc sizeof) = false ->
   ErrorIn (TestVectorY n y_buffer y_offset y_inc sizeof) = false ->
   raises backend CallGetProgramFromCache = false ->
   exists kernel_name, @CallKernel T kernel_name ∈ outcome.2).
Proof.
  intros Ht. subst outcome use_fast.
  pose proof (use_fast_kernel_legal db_ n x_offset x_inc y_offset y_inc Ht) as Hlegal.
  split; [done|split].
  - intros kernel_name ->%run_kernel_name.
    destruct (use_fast_kernel db_ n x_offset x_inc y_offset y_inc); simpl.
    + left. split; [by apply Hlegal|done].
    + right. split; [|done]. intros Hl%Hlegal. done.
  - intros Hn Hx Hy Hprogram. eexists. by apply run_kernel_created.
Qed.

(** C5.  When the fast kernel is selected, the launch has global work size
    ceil(n / (WPT*VW)) and local work size WGS: the global size is the
    round-up quotient [CeilDiv n (WPT*VW)], that is the one [q] with
    (q-1)*(WPT*VW) < n <= q*(WPT*VW). *)
Theorem fast_launch_geometry :
  tuned db_ ->
  use_fast = true ->
  forall kernel_name global local,
    @CallRunKernel T kernel_name global local ∈ outcome.2 ->
    kernel_name = "XaxpyFast" /\
    global = [CeilDiv n (db_at db_ "WPT" * db_at db_ "VW")] /\
    (CeilDiv n (db_at db_ "WPT" * db_at db_ "VW") - 1) * (db_at db_ "WPT" * db_at db_ "VW") < n
      <= CeilDiv n (db_at db_ "WPT" * db_at db_ "VW") * (db_at db_ "WPT" * db_at db_ "VW") /\
    local = [db_at db_ "WGS"].
Proof.
  intros Ht Hfast kernel_name global local Hin. subst outcome use_fast.
  apply run_launched in Hin as [Heq _]. cbv zeta in Heq.
  rewrite Hfast in Heq. unfold launch_call, launch_global, kernel_name_of in Heq.
  rewrite (tuned_thread db_ Ht) in Heq. injection Heq as -> -> ->.
  repeat split; try done; apply CeilDiv_bounds; destruct Ht as (? & ? & ? & ?); nia.
Qed.

(** C6, as the routine has it.  When the generic kernel is selected and the
    length rounded up to a multiple of WGS*WPT is still representable in
    [size_t], [n] is first rounded up to the nearest multiple of WGS*WPT,
    giving [n_ceiled] (the least multiple of WGS*WPT that is not below [n],
    so n <= n_ceiled < n + WGS*WPT), and the launch has global work size
    n_ceiled / WPT (an exact quotient) and local work size WGS. *)
Theorem generic_launch_geometry :
  tuned db_ ->
  use_fast = false ->
  0 <= n ->
  Ceil n (db_at db_ "WGS" * db_at db_ "WPT") < size_t_range ->
  forall kernel_name global local,
    @CallRunKernel T kernel_name global local ∈ outcome.2 ->
    let n_ceiled := Ceil n (db_at db_ "WGS" * db_at db_ "WPT") in
    kernel_name = "Xaxpy" /\
    (db_at db_ "WGS" * db_at db_ "WPT" | n_ceiled) /\
    n <= n_ceiled < n + db_at db_ "WGS" * db_at db_ "WPT" /\
    (forall m, (db_at db_ "WGS" * db_at db_ "WPT" | m) -> n <= m -> n_ceiled <= m) /\
    global = [n_ceiled `quot` db_at db_ "WPT"] /\
    (n_ceiled `quot` db_at db_ "WPT") * db_at db_ "WPT" = n_ceiled /\
    local = [db_at db_ "WGS"].
Proof.
  intros Ht Hgeneric Hn Hrep kernel_name global local Hin. subst outcome use_fast.
  apply run_launched in Hin as [Heq _]. cbv zeta in *.
  rewrite Hgeneric in Heq.
  unfold launch_call, launch_global, kernel_name_of, size_t_div in Heq.
  rewrite (tuned_group db_ Ht) in Heq.
  destruct Ht as (Hwgs & Hwpt & Hvw & Hfit).
  pose proof (Ceil_bounds n (db_at db_ "WGS" * db_at db_ "WPT") ltac:(nia)) as Hceil.
  rewrite to_size_t_small in Heq by lia. injection Heq as -> -> ->.
  split; [done|]. split; [apply Ceil_multiple|].
  split; [apply Ceil_bounds; nia|].
  split; [intros m Hm Hle; apply Ceil_least; [nia|done..]|].
  split; [done|]. split; [|done].
  unfold Ceil. rewrite Z.mul_assoc, Z.quot_mul by lia. reflexivity.
Qed.


(** C8.  Kernel arguments are bound in the positional order of the selected
    variant: at any point of an invocation the arguments bound so far are an
    initial part of the variant's list, and by the time of the launch they
    are exactly (n, alpha, x buffer, y buffer) at positions 0-3 for the fast
    variant and (n, alpha, x buffer, x_offset, x_inc, y buffer, y_offset,
    y_inc) at positions 0-7 for the generic variant; offsets and increments
    are bound by the generic variant only. *)
Theorem argument_binding_order :
  let expected :=
    if use_fast then fast_arguments n alpha x_buffer y_buffer
    else generic_arguments n alpha x_buffer x_offset x_inc y_buffer y_offset y_inc in
  bound_arguments outcome.2 `prefix_of` expected /\
  (launched outcome.2 -> bound_arguments outcome.2 = expected).
Proof.
  cbv zeta. subst outcome use_fast. split.
  - pose proof (run_script_prefix backend db_ n alpha x_buffer x_offset x_inc
                  y_buffer y_offset y_inc) as Hpre.
    apply bound_arguments_prefix in Hpre.
    cbv zeta in Hpre. rewrite bound_arguments_script in Hpre.
    by rewrite app_nil_r in Hpre.
  - intros (kernel_name & global & local & Hin).
    apply run_launched in Hin as [_ ->]. cbv zeta.
    repeat case_match; cbn [snd]; rewrite <- !app_comm_cons, bound_arguments_script;
      apply app_nil_r.
Qed.

(** C10.  Every integer bound as a kernel argument is the size [n], an
    offset or an increment narrowed by [static_cast<int>]: it is the input
    reduced modulo 2^32 and read as a signed 32-bit number, it lies in the
    range of [int], and for an input above [INT_MAX] it is not the original
    value.  An invocation that reaches the launch has bound the narrowed [n],
    and on the generic path the narrowed offsets and increments as well; an
    offset or increment above [INT_MAX] always takes the generic path, so the
    kernel receives it narrowed. *)
Theorem int_narrowing :
  (forall (index : nat) (w : Z),
     @CallSetArgument T index (ArgInt w) ∈ outcome.2 ->
     exists v,
       (index, v) ∈ [(0%nat, n); (3%nat, x_offset); (4%nat, x_inc);
                     (6%nat, y_offset); (7%nat, y_inc)] /\
       w = static_cast_int v /\
       w = (if v `mod` 2 ^ 32 <? 2 ^ 31 then v `mod` 2 ^ 32 else v `mod` 2 ^ 32 - 2 ^ 32) /\
       INT_MIN <= w <= INT_MAX /\
       (INT_MAX < v -> w <> v)) /\
  (launched outcome.2 ->
     @CallSetArgument T 0 (ArgInt (static_cast_int n)) ∈ outcome.2 /\
     (use_fast = false ->
        @CallSetArgument T 3 (ArgInt (static_cast_int x_offset)) ∈ outcome.2 /\
        @CallSetArgument T 4 (ArgInt (static_cast_int x_inc)) ∈ outcome.2 /\
        @CallSetArgument T 6 (ArgInt (static_cast_int y_offset)) ∈ outcome.2 /\
        @CallSetArgument T 7 (ArgInt (static_cast_int y_inc)) ∈ outcome.2)) /\
  (INT_MAX < x_offset \/ INT_MAX < x_inc \/ INT_MAX < y_offset \/ INT_MAX < y_inc ->
     use_fast = false).
Proof.
  subst outcome use_fast. split; [|split]; cycle 1.
  { intros (kernel_name & global & local & Hin).
    apply run_launched in Hin as [_ Hrun]. cbv zeta in Hrun.
    assert (forall c : Call T,
              c ∈ setup_calls (use_fast_kernel db_ n x_offset x_inc y_offset y_inc)
                    n alpha x_buffer x_offset x_inc y_buffer y_offset y_inc ->
              c ∈ (run backend db_ n alpha x_buffer x_offset x_inc
                     y_buffer y_offset y_inc).2) as Hbefore.
    { intros c Hc. rewrite Hrun. repeat case_match; cbn [snd];
        apply elem_of_app; left; do 2 (apply elem_of_cons; right); exact Hc. }
    split.
    - apply Hbefore. unfold setup_calls, fast_arguments, generic_arguments.
      destruct (use_fast_kernel db_ n x_offset x_inc y_offset y_inc);
        cbn [map fst snd]; repeat constructor.
    - intros Hgeneric. repeat split; apply Hbefore;
        unfold setup_calls, generic_arguments; rewrite Hgeneric;
        cbn [map fst snd]; repeat constructor. }
  { unfold use_fast_kernel, INT_MAX. intros Hbig.
    destruct (Z.eqb_spec x_offset 0); [|done].
    destruct (Z.eqb_spec x_inc 1); [|done].
    destruct (Z.eqb_spec y_offset 0); [|done].
    destruct (Z.eqb_spec y_inc 1); [|done]. lia. }
  intros index w Hin.
  assert (exists v, (index, v) ∈ [(0%nat, n); (3%nat, x_offset); (4%nat, x_inc);
                                  (6%nat, y_offset); (7%nat, y_inc)] /\
                    w = static_cast_int v) as (v & Hv & ->).
  { destruct (run_script_prefix backend db_ n alpha x_buffer x_offset x_inc
                y_buffer y_offset y_inc) as [k Hk].
    assert (@CallSetArgument T index (ArgInt w) ∈
              (run backend db_ n alpha x_buffer x_offset x_inc y_buffer y_offset y_inc).2 ++ k)
      as Hin' by (apply elem_of_app; by left).
    rewrite <- Hk in Hin'. clear Hin Hk.
    assert ((index, @ArgInt T w) ∈ bound_arguments
              (CallTestVectorX :: CallTestVectorY ::
                 setup_calls (use_fast_kernel db_ n x_offset x_inc y_offset y_inc)
                   n alpha x_buffer x_offset x_inc y_buffer y_offset y_inc ++
                 [launch_call db_ (use_fast_kernel db_ n x_offset x_inc y_offset y_inc) n;
                  CallFinish])) as Hb.
    { unfold bound_arguments. apply list_elem_of_omap. eexists. split; [exact Hin'|done]. }
    rewrite bound_arguments_script, app_nil_r in Hb.
    destruct (use_fast_kernel db_ n x_offset x_inc y_offset y_inc);
      unfold fast_arguments, generic_arguments in Hb;
      repeat (apply elem_of_cons in Hb as [Hb|Hb]);
      try (by apply elem_of_nil in Hb);
      simplify_eq; eexists; (split; [|reflexivity]); repeat constructor. }
  exists v. split; [done|]. split; [done|].
  rewrite static_cast_int_mod.
  pose proof (Z.mod_pos_bound v (2 ^ 32) ltac:(lia)) as Hm.
  unfold INT_MIN, INT_MAX. split; [done|].
  destruct (Z.ltb_spec (v `mod` 2 ^ 32) (2 ^ 31)); lia.
Qed.

(** C2, as the routine has it.  Every invocation returns a status: no
    exception leaves the routine.  An exception raised by program retrieval,
    kernel creation, argument binding, the launch or the final wait is
    reported as [kInvalidKernel]; an error status that the launch returns is
    handed to the caller unchanged. *)
Theorem failure_conversion :
  (exists status, outcome.1 = Returned status) /\
  (forall c, c ∈ outcome.2 -> is_backend_call c = true -> raises backend c = true ->
     outcome.1 = Returned kInvalidKernel) /\
  (forall kernel_name global local,
     @CallRunKernel T kernel_name global local ∈ outcome.2 ->
     raises backend (CallRunKernel kernel_name global local) = false ->
     ErrorIn (launch_status backend kernel_name global local) = true ->
     outcome.1 = Returned (launch_status backend kernel_name global local)).
Proof.
  subst outcome use_fast. split; [|split].
  - destruct (decide (n = 0)) as [->|Hn]; [rewrite run_zero; eauto|].
    destruct (ErrorIn (TestVectorX n x_buffer x_offset x_inc sizeof)) eqn:Hx;
      [rewrite run_x_invalid by done; eauto|].
    destruct (ErrorIn (TestVectorY n y_buffer y_offset y_inc sizeof)) eqn:Hy;
      [rewrite run_y_invalid by done; eauto|].
    rewrite run_validated by done. cbv zeta. repeat case_match; eauto.
  - intros c Hin Hbackend Hraises.
    destruct (decide (n = 0)) as [->|Hn].
    { rewrite run_zero in Hin. by apply elem_of_nil in Hin. }
    destruct (ErrorIn (TestVectorX n x_buffer x_offset x_inc sizeof)) eqn:Hx.
    { rewrite run_x_invalid in Hin by done.
      apply list_elem_of_singleton in Hin as ->. done. }
    destruct (ErrorIn (TestVectorY n y_buffer y_offset y_inc sizeof)) eqn:Hy.
    { rewrite run_y_invalid in Hin by done.
      apply elem_of_cons in Hin as [->|Hin]; [done|].
      apply list_elem_of_singleton in Hin as ->. done. }
    rewrite run_validated in * by done. cbv zeta in *.
    set (cs := setup_calls _ _ _ _ _ _ _ _ _) in *.
    set (rk := launch_call _ _ _) in *.
    destruct (attempt backend cs).1 eqn:Hok; [|done].
    destruct (attempt_true backend cs Hok) as [Heq Hall]. rewrite Heq in Hin.
    assert (forall tail, c ∈ CallTestVectorX :: CallTestVectorY :: cs ++ tail -> c ∈ tail)
      as Hskip.
    { intros tail [->|[->|Hc]%elem_of_cons]%elem_of_cons; [done..|].
      apply elem_of_app in Hc as [Hc|Hc]; [|done].
      rewrite (Hall c Hc) in Hraises. done. }
    clearbody cs rk.
    destruct (raises backend rk) eqn:Hrk; [done|].
    destruct (ErrorIn _) eqn:Herr; cbn [fst snd] in *.
    { apply Hskip, list_elem_of_singleton in Hin as ->. congruence. }
    destruct (raises backend CallFinish) eqn:Hfinish; [done|]. cbn [fst snd] in *.
    apply Hskip in Hin. apply elem_of_cons in Hin as [->|Hin]; [congruence|].
    apply list_elem_of_singleton in Hin as ->. congruence.
  - intros kernel_name global local Hin Hraises Herr.
    apply run_launched in Hin as [Heq Hrun]. cbv zeta in *.
    rewrite Hrun. rewrite <- Heq.
    unfold launch_call in Heq. injection Heq as -> -> ->.
    fold (@launch_call T db_ (use_fast_kernel db_ n x_offset x_inc y_offset y_inc) n).
    fold (@launch_call T db_ (use_fast_kernel db_ n x_offset x_inc y_offset y_inc) n)
      in Hraises.
    by rewrite Hraises, Herr.
Qed.

End Properties.

(** C7.  For positive [n] and [k], the ceiling division of the geometry
    calculator equals (n + k - 1) / k under truncating division, and it never
    truncates a remainder away: the result times [k] covers [n], and a
    non-zero remainder adds one to the truncated quotient. *)
Theorem CeilDiv_round_up (n k : Z) :
  0 < n -> 0 < k ->
  CeilDiv n k = (n + k - 1) `quot` k /\
  (CeilDiv n k - 1) * k < n <= CeilDiv n k * k /\
  (n `rem` k <> 0 -> CeilDiv n k = n `quot` k + 1).
Proof.
  intros Hn Hk.
  pose proof (CeilDiv_bounds n k Hk) as Hb.
  split; [|split; [done|]].
  - rewrite Z.quot_div_nonneg by lia.
    apply Z.div_unique with (n + k - 1 - CeilDiv n k * k); lia.
  - rewrite Z.rem_mod_nonneg, Z.quot_div_nonneg by lia.
    intros Hr. unfold CeilDiv.
    destruct (Z.eqb_spec (n `mod` k) 0); [done|reflexivity].
Qed.

(** ** The properties at concrete invocations *)

Lemma validation_order_witness :
  0 < 1024 /\
  run sound_backend db_256 1024 one x_8k 0 1 y_small 0 1 =
    (Returned kInvalidBufferSize, [CallTestVectorX; CallTestVectorY]).
Proof.
  split; [lia|].
  pose proof (validation_order sound_backend db_256 1024 one x_8k 0 1 y_small 0 1
                ltac:(lia)) as (_ & Hy & _).
  exact (Hy eq_refl eq_refl).
Defined.

Lemma kernel_selection_witness :
  tuned db_256 /\
  (use_fast_kernel db_256 1024 0 1 0 1 = true <-> fast_path_legal db_256 1024 0 1 0 1).
Proof.
  assert (tuned db_256) as Ht by (vm_compute; repeat split).
  split; [exact Ht|].
  exact (proj1 (kernel_selection sound_backend db_256 1024 one x_8k 0 1 y_8k 0 1 Ht)).
Defined.

Lemma fast_launch_geometry_witness :
  tuned db_256 /\
  use_fast_kernel db_256 1024 0 1 0 1 = true /\
  @CallRunKernel float "XaxpyFast" [256] [64] ∈
    (run sound_backend db_256 1024 one x_8k 0 1 y_8k 0 1).2 /\
  [256] = [CeilDiv 1024 (db_at db_256 "WPT" * db_at db_256 "VW")] /\
  [64] = [db_at db_256 "WGS"].
Proof.
  assert (tuned db_256) as Ht by (vm_compute; repeat split).
  assert (use_fast_kernel db_256 1024 0 1 0 1 = true) as Hfast by reflexivity.
  assert (@CallRunKernel float "XaxpyFast" [256] [64] ∈
            (run sound_backend db_256 1024 one x_8k 0 1 y_8k 0 1).2) as Hin
    by (vm_compute; repeat constructor).
  pose proof (fast_launch_geometry sound_backend db_256 1024 one x_8k 0 1 y_8k 0 1
                Ht Hfast _ _ _ Hin) as (_ & Hglobal & _ & Hlocal).
  split; [exact Ht|]. split; [exact Hfast|]. split; [exact Hin|].
  split; [exact Hglobal|exact Hlocal].
Defined.

Lemma generic_launch_geometry_witness :
  tuned db_256 /\
  use_fast_kernel db_256 1000 0 1 0 1 = false /\
  0 <= 1000 /\
  Ceil 1000 (db_at db_256 "WGS" * db_at db_256 "WPT") < size_t_range /\
  @CallRunKernel float "Xaxpy" [512] [64] ∈
    (run sound_backend db_256 1000 one x_8k 0 1 y_8k 0 1).2 /\
  [512] = [Ceil 1000 (db_at db_256 "WGS" * db_at db_256 "WPT") `quot` db_at db_256 "WPT"] /\
  [64] = [db_at db_256 "WGS"].
Proof.
  assert (tuned db_256) as Ht by (vm_compute; repeat split).
  assert (use_fast_kernel db_256 1000 0 1 0 1 = false) as Hgeneric by reflexivity.
  assert (@CallRunKernel float "Xaxpy" [512] [64] ∈
            (run sound_backend db_256 1000 one x_8k 0 1 y_8k 0 1).2) as Hin
    by (vm_compute; repeat constructor).
  assert (Ceil 1000 (db_at db_256 "WGS" * db_at db_256 "WPT") < size_t_range) as Hrep
    by reflexivity.
  pose proof (generic_launch_geometry sound_backend db_256 1000 one x_8k 0 1 y_8k 0 1
                Ht Hgeneric ltac:(lia) Hrep _ _ _ Hin)
    as (_ & _ & _ & _ & Hglobal & _ & Hlocal).
  split; [exact Ht|]. split; [exact Hgeneric|]. split; [lia|]. split; [exact Hrep|].
  split; [exact Hin|].
  split; [exact Hglobal|exact Hlocal].
Defined.


Lemma CeilDiv_round_up_witness :
  0 < 1000 /\ 0 < 4 /\ CeilDiv 1000 4 = (1000 + 4 - 1) `quot` 4 /\
  0 < 1001 /\ CeilDiv 1001 4 = (1001 + 4 - 1) `quot` 4.
Proof.
  split; [lia|]. split; [lia|].
  split; [exact (proj1 (CeilDiv_round_up 1000 4 ltac:(lia) ltac:(lia)))|].
  split; [lia|].
  exact (proj1 (CeilDiv_round_up 1001 4 ltac:(lia) ltac:(lia))).
Defined.

Lemma argument_binding_order_witness :
  launched (run sound_backend db_256 1000 one x_8k 3 2 y_8k 0 1).2 /\
  bound_arguments (run sound_backend db_256 1000 one x_8k 3 2 y_8k 0 1).2 =
    generic_arguments 1000 one x_8k 3 2 y_8k 0 1.
Proof.
  assert (launched (run sound_backend db_256 1000 one x_8k 3 2 y_8k 0 1).2) as Hl.
  { exists "Xaxpy", [512], [64]. vm_compute. repeat constructor. }
  split; [exact Hl|].
  exact (proj2 (argument_binding_order sound_backend db_256 1000 one x_8k 3 2 y_8k 0 1) Hl).
Defined.

(** An offset of 2^32 + 3 is bound as 3 and an increment of 2^31 as -2^31. *)
Lemma int_narrowing_witness :
  launched (run sound_backend db_256 1000 one x_16t (2 ^ 32 + 3) (2 ^ 31) y_8k 0 1).2 /\
  INT_MAX < 2 ^ 32 + 3 /\
  @CallSetArgument float 3 (ArgInt 3) ∈
    (run sound_backend db_256 1000 one x_16t (2 ^ 32 + 3) (2 ^ 31) y_8k 0 1).2 /\
  @CallSetArgument float 4 (ArgInt (- 2 ^ 31)) ∈
    (run sound_backend db_256 1000 one x_16t (2 ^ 32 + 3) (2 ^ 31) y_8k 0 1).2 /\
  exists v, (3%nat, v) ∈ [(0%nat, 1000); (3%nat, 2 ^ 32 + 3); (4%nat, 2 ^ 31);
                          (6%nat, 0); (7%nat, 1)] /\
            3 = static_cast_int v /\ (INT_MAX < v -> 3 <> v).
Proof.
  assert (launched (run sound_backend db_256 1000 one x_16t (2 ^ 32 + 3) (2 ^ 31)
                      y_8k 0 1).2) as Hl.
  { exists "Xaxpy", [512], [64]. vm_compute. repeat constructor. }
  assert (INT_MAX < 2 ^ 32 + 3) as Hbig by (unfold INT_MAX; lia).
  destruct (int_narrowing sound_backend db_256 1000 one x_16t (2 ^ 32 + 3) (2 ^ 31)
              y_8k 0 1) as (Hany & Hlaunch & Hforce).
  destruct (Hlaunch Hl) as (_ & Hrest).
  destruct (Hrest (Hforce (or_introl Hbig))) as (H3 & H4 & _ & _).
  destruct (Hany 3%nat 3 H3) as (v & Hv & Hcast & _ & _ & Hne).
  split; [exact Hl|]. split; [exact Hbig|]. split; [exact H3|]. split; [exact H4|].
  exists v. split; [exact Hv|]. split; [exact Hcast|exact Hne].
Defined.

(** Without a compiled program the routine reports [kInvalidKernel]. *)
Lemma failure_conversion_witness :
  @CallGetProgramFromCache float ∈
    (run no_program_backend db_256 1024 one x_8k 0 1 y_8k 0 1).2 /\
  raises no_program_backend CallGetProgramFromCache = true /\
  (run no_program_backend db_256 1024 one x_8k 0 1 y_8k 0 1).1 = Returned kInvalidKernel.
Proof.
  assert (@CallGetProgramFromCache float ∈
            (run no_program_backend db_256 1024 one x_8k 0 1 y_8k 0 1).2) as Hin
    by (vm_compute; repeat constructor).
  split; [exact Hin|]. split; [reflexivity|].
  exact (proj1 (proj2 (failure_conversion no_program_backend db_256 1024 one
                         x_8k 0 1 y_8k 0 1)) _ Hin eq_refl eq_refl).
Defined.

(** C6, as stated, fails: for the largest length the rounded value is not
    representable, the generic launch is made with global size 0, and no
    multiple of WGS*WPT that is not below [n] has that quotient by WPT. *)
Lemma generic_rounding_wraps :
  tuned db_256 /\
  use_fast_kernel db_256 SIZE_MAX 0 0 0 0 = false /\
  @CallRunKernel float "Xaxpy" [0] [64] ∈
    (run sound_backend db_256 SIZE_MAX one x_8k 0 0 y_8k 0 0).2 /\
  ~ (exists n_ceiled,
       (db_at db_256 "WGS" * db_at db_256 "WPT" | n_ceiled) /\
       SIZE_MAX <= n_ceiled /\
       [0] = [n_ceiled `quot` db_at db_256 "WPT"]).
Proof.
  split; [vm_compute; repeat split|]. split; [reflexivity|].
  split; [vm_compute; repeat constructor|].
  intros (n_ceiled & [q Hq] & Hle & Heq).
  change (db_at db_256 "WGS") with 64 in *. change (db_at db_256 "WPT") with 2 in *.
  injection Heq as Heq. subst n_ceiled.
  replace (q * (64 * 2)) with (q * 64 * 2) in * by ring.
  rewrite Z.quot_mul in Heq by lia.
  unfold SIZE_MAX, size_t_range, size_t_bits in Hle. lia.
Qed.


(** C2, as stated, fails: a launch that reports an error status of its own
    is a backend failure, and the caller receives that status, not
    [kInvalidKernel]. *)
Lemma launch_status_not_collapsed :
  failure_in failing_launch_backend
    (run failing_launch_backend db_256 1024 one x_8k 0 1 y_8k 0 1).2 /\
  (run failing_launch_backend db_256 1024 one x_8k 0 1 y_8k 0 1).1 =
    Returned (kOtherStatus (-2046)) /\
  (run failing_launch_backend db_256 1024 one x_8k 0 1 y_8k 0 1).1 <>
    Returned kInvalidKernel.
Proof.
  split; [|split; [reflexivity|discriminate]].
  right. exists "XaxpyFast", [256], [64]. split; [|reflexivity].
  vm_compute. repeat constructor.
Qed.

(** ** Further properties of the routine *)

Lemma attempt_all_ok {T} (backend : Backend T) (cs : list (Call T)) :
  (forall c, c ∈ cs -> raises backend c = false) -> attempt backend cs = (true, cs).
Proof.
  induction cs as [|c cs IH]; simpl; intros Hall; [done|].
  rewrite (Hall c) by (apply elem_of_cons; by left).
  rewrite IH; [done|]. intros c' Hc'. apply Hall, elem_of_cons. by right.
Qed.


Lemma setup_calls_NoDup {T} (use_fast : bool) (n : Z) (alpha : T)
    (x_buffer : Buffer) (x_offset x_inc : Z)
    (y_buffer : Buffer) (y_offset y_inc : Z) (db_ : gmap string Z) :
  NoDup (CallTestVectorX :: CallTestVectorY ::
           setup_calls use_fast n alpha x_buffer x_offset x_inc y_buffer y_offset y_inc ++
           [launch_call db_ use_fast n; CallFinish]).
Proof.
  unfold setup_calls, launch_call, fast_arguments, generic_arguments.
  destruct use_fast; simpl;
    repeat (apply NoDup_cons; split;
            [intros Hin;
             repeat (apply elem_of_cons in Hin as [Hin|Hin]; [discriminate Hin|]);
             by apply elem_of_nil in Hin|]);
    apply NoDup_nil_2.
Qed.

Lemma static_cast_int_small (v : Z) :
  INT_MIN <= v <= INT_MAX -> static_cast_int v = v.
Proof.
  unfold INT_MIN, INT_MAX. intros Hv. rewrite static_cast_int_mod.
  destruct (decide (0 <= v)) as [Hpos|Hneg].
  - rewrite Z.mod_small by lia. destruct (Z.ltb_spec v (2 ^ 31)); lia.
  - assert (v `mod` 2 ^ 32 = v + 2 ^ 32) as ->
      by (symmetry; apply Z.mod_unique with (-1); lia).
    destruct (Z.ltb_spec (v + 2 ^ 32) (2 ^ 31)); lia.
Qed.

Lemma static_cast_int_periodic (v k : Z) :
  static_cast_int (v + k * 2 ^ 32) = static_cast_int v.
Proof.
  rewrite !static_cast_int_mod. by rewrite Z.mod_add by lia.
Qed.

Section Conduct.
Context {T : Type} `{Element T}.
Variable backend : Backend T.
Variable db_ : gmap string Z.
Variables (n : Z) (alpha : T).
Variables (x_buffer : Buffer) (x_offset x_inc : Z).
Variables (y_buffer : Buffer) (y_offset y_inc : Z).

Let outcome : Outcome StatusCode * list (Call T) :=
  run backend db_ n alpha x_buffer x_offset x_inc y_buffer y_offset y_inc.
Let use_fast : bool := use_fast_kernel db_ n x_offset x_inc y_offset y_inc.
Let setup : list (Call T) :=
  setup_calls use_fast n alpha x_buffer x_offset x_inc y_buffer y_offset y_inc.
Let rk : Call T := launch_call db_ use_fast n.
Let status : StatusCode :=
  launch_status backend (kernel_name_of use_fast) (launch_global db_ use_fast n)
    [db_at db_ "WGS"].

(** X1.  The routine returns [kSuccess] exactly when every stage went
    through: the length is not zero, both checks pass, no call of the try
    block raises and the launch reports no error.  It has then made every
    call of the invocation, the final wait included. *)
Theorem success_exactly_when_all_stages_pass :
  (outcome.1 = Returned kSuccess <->
     n <> 0 /\
     ErrorIn (TestVectorX n x_buffer x_offset x_inc sizeof) = false /\
     ErrorIn (TestVectorY n y_buffer y_offset y_inc sizeof) = false /\
     (forall c, c ∈ setup ++ [rk; CallFinish] -> raises backend c = false) /\
     ErrorIn status = false) /\
  (outcome.1 = Returned kSuccess ->
     outcome.2 = CallTestVectorX :: CallTestVectorY :: setup ++ [rk; CallFinish]).
Proof.
  subst outcome setup rk status use_fast.
  destruct (decide (n = 0)) as [->|Hn].
  { rewrite run_zero. split; [split|]; [done| |done]. by intros [? _]. }
  destruct (ErrorIn (TestVectorX n x_buffer x_offset x_inc sizeof)) eqn:Hx.
  { rewrite run_x_invalid by done. cbn [fst snd].
    split; [split|]; [|by intros (_ & ? & _)|]; intros [= Heq]; rewrite Heq in Hx; done. }
  destruct (ErrorIn (TestVectorY n y_buffer y_offset y_inc sizeof)) eqn:Hy.
  { rewrite run_y_invalid by done. cbn [fst snd].
    split; [split|]; [|by intros (_ & _ & ? & _)|]; intros [= Heq]; rewrite Heq in Hy; done. }
  rewrite run_validated by done. cbv zeta.
  set (cs := setup_calls _ _ _ _ _ _ _ _ _).
  set (rk := launch_call _ _ _).
  set (status := launch_status _ _ _ _).
  destruct (attempt backend cs).1 eqn:Hok.
  - destruct (attempt_true backend cs Hok) as [Heq Hall]. rewrite Heq.
    assert (forall c : Call T, c ∈ cs ++ [rk; CallFinish] <->
              c ∈ cs \/ c = rk \/ c = CallFinish) as Hmem.
    { intros c. rewrite elem_of_app, elem_of_cons, list_elem_of_singleton. tauto. }
    destruct (raises backend rk) eqn:Hrk; cbn [fst snd].
    { split; [split|]; [done| |done].
      intros (_ & _ & _ & Hcalls & _). rewrite (Hcalls rk) in Hrk; [done|].
      apply Hmem. auto. }
    destruct (ErrorIn status) eqn:Herr; cbn [fst snd].
    { split; [split|]; [|by intros (_ & _ & _ & _ & ?)|];
        intros [= Heq']; rewrite Heq' in Herr; done. }
    destruct (raises backend CallFinish) eqn:Hfin; cbn [fst snd].
    { split; [split|]; [done| |done].
      intros (_ & _ & _ & Hcalls & _). rewrite (Hcalls CallFinish) in Hfin; [done|].
      apply Hmem. auto. }
    split; [split|]; [|done..].
    intros _. repeat (split; [done|]). split; [|done].
    intros c [Hc|[->| ->]]%Hmem; auto.
  - cbn [fst snd]. split; [split|]; [done| |done].
    intros (_ & _ & _ & Hcalls & _).
    rewrite attempt_all_ok in Hok; [done|].
    intros c Hc. apply Hcalls, elem_of_app. by left.
Qed.

(** X2.  The routine waits for the queue exactly when the launch was made,
    did not raise and reported no error; after a failed launch it returns
    without waiting.  The wait, when made, is the last call. *)
Theorem finish_only_after_clean_launch :
  (@CallFinish T ∈ outcome.2 <->
     launched outcome.2 /\ raises backend rk = false /\ ErrorIn status = false) /\
  (@CallFinish T ∈ outcome.2 -> last outcome.2 = Some CallFinish).
Proof.
  subst outcome setup rk status use_fast.
  destruct (decide (n = 0)) as [->|Hn].
  { rewrite run_zero. cbn [snd]. split; [split|]; [| intros ((? & ? & ? & Hin) & _) |];
      try (by intros ?%elem_of_nil). by apply elem_of_nil in Hin. }
  destruct (ErrorIn (TestVectorX n x_buffer x_offset x_inc sizeof)) eqn:Hx.
  { rewrite run_x_invalid by done. cbn [snd].
    split; [split|]; [| intros ((? & ? & ? & Hin) & _) |];
      try (by intros ?%list_elem_of_singleton). by apply list_elem_of_singleton in Hin. }
  destruct (ErrorIn (TestVectorY n y_buffer y_offset y_inc sizeof)) eqn:Hy.
  { rewrite run_y_invalid by done. cbn [snd].
    split; [split|]; [| intros ((? & ? & ? & Hin) & _) |];
      try (by intros [?|?%list_elem_of_singleton]%elem_of_cons).
    by apply elem_of_cons in Hin as [?|?%list_elem_of_singleton]. }
  split.
  - split.
    + intros Hin.
      assert (launched (run backend db_ n alpha x_buffer x_offset x_inc
                          y_buffer y_offset y_inc).2) as Hl.
      { revert Hin. rewrite run_validated by done. cbv zeta.
        set (cs := setup_calls _ _ _ _ _ _ _ _ _).
        pose proof (attempt_prefix backend cs) as [k Hk].
        assert (@CallFinish T ∉ cs) as Hcs.
        { intros Hc. by apply setup_calls_no_launch in Hc. }
        assert (@CallFinish T ∉ (attempt backend cs).2) as Hcs'.
        { intros Hc. apply Hcs. rewrite Hk. apply elem_of_app. by left. }
        assert (forall tail, launched (CallTestVectorX :: CallTestVectorY ::
                  (attempt backend cs).2 ++ launch_call db_
                    (use_fast_kernel db_ n x_offset x_inc y_offset y_inc) n :: tail)) as Hl.
        { intros tail. eexists _, _, _. do 2 (apply elem_of_cons; right).
          apply elem_of_app. right. unfold launch_call. apply elem_of_cons. by left. }
        repeat case_match; cbn [snd]; intros Hin; try apply Hl.
        exfalso. apply elem_of_cons in Hin as [?|Hin]; [done|].
        apply elem_of_cons in Hin as [?|Hin]; [done|]. done. }
      split; [done|].
      destruct Hl as (kernel_name & global & local & Hl).
      apply run_launched in Hl as [_ Hrun]. cbv zeta in Hrun. rewrite Hrun in Hin.
      assert (forall tr : list (Call T),
                @CallFinish T ∈ CallTestVectorX :: CallTestVectorY :: tr ++
                  [launch_call db_ (use_fast_kernel db_ n x_offset x_inc y_offset y_inc) n] ->
                @CallFinish T ∈ tr) as Hskip.
      { intros tr Hc. apply elem_of_cons in Hc as [?|Hc]; [done|].
        apply elem_of_cons in Hc as [?|Hc]; [done|].
        apply elem_of_app in Hc as [Hc|Hc]; [done|].
        by apply list_elem_of_singleton in Hc. }
      destruct (raises backend (launch_call _ _ _)) eqn:Hrk; cbn [snd] in Hin.
      { apply Hskip in Hin. by apply setup_calls_no_launch in Hin. }
      destruct (ErrorIn (launch_status _ _ _ _)) eqn:Herr; cbn [snd] in Hin; [|done].
      apply Hskip in Hin. by apply setup_calls_no_launch in Hin.
    + intros ((kernel_name & global & local & Hl) & Hrk & Herr).
      apply run_launched in Hl as [_ Hrun]. cbv zeta in Hrun. rewrite Hrun, Hrk, Herr.
      repeat case_match; cbn [snd]; do 2 (apply elem_of_cons; right);
        apply elem_of_app; right; apply elem_of_cons; right; by apply list_elem_of_singleton.
  - rewrite run_validated by done. cbv zeta.
    set (cs := setup_calls _ _ _ _ _ _ _ _ _).
    pose proof (attempt_prefix backend cs) as [k Hk].
    assert (@CallFinish T ∉ (attempt backend cs).2) as Hcs'.
    { intros Hc. assert (@CallFinish T ∈ cs) as Hc'
        by (rewrite Hk; apply elem_of_app; by left).
      by apply setup_calls_no_launch in Hc'. }
    assert (forall (a b : Call T) tr, last (a :: b :: tr ++ [launch_call db_
              (use_fast_kernel db_ n x_offset x_inc y_offset y_inc) n; CallFinish]) =
              Some CallFinish) as Hlast.
    { intros a b tr. rewrite !app_comm_cons.
      change [launch_call db_ (use_fast_kernel db_ n x_offset x_inc y_offset y_inc) n;
              CallFinish]
        with ([launch_call db_ (use_fast_kernel db_ n x_offset x_inc y_offset y_inc) n] ++
              [@CallFinish T]).
      rewrite app_assoc. apply last_snoc. }
    assert (forall tr, @CallFinish T ∉ tr ->
              @CallFinish T ∉ CallTestVectorX :: CallTestVectorY :: tr ++
                [launch_call db_ (use_fast_kernel db_ n x_offset x_inc y_offset y_inc) n])
      as Hnot.
    { intros tr Htr Hc. apply elem_of_cons in Hc as [?|Hc]; [done|].
      apply elem_of_cons in Hc as [?|Hc]; [done|].
      apply elem_of_app in Hc as [Hc|Hc]; [done|].
      by apply list_elem_of_singleton in Hc. }
    repeat case_match; cbn [snd]; intros Hin; try apply Hlast.
    + by apply Hnot in Hin.
    + by apply Hnot in Hin.
    + apply elem_of_cons in Hin as [?|Hin]; [done|].
      apply elem_of_cons in Hin as [?|Hin]; [done|]. done.
Qed.

(** X3.  The calls of an invocation are made in one fixed order, each at
    most once: both checks, program retrieval, creation of the selected
    kernel, the arguments by increasing position, one launch of that same
    kernel, the final wait.  An invocation that ends early has made an
    initial part of this sequence. *)
Theorem calls_in_program_order :
  outcome.2 `prefix_of`
    (CallTestVectorX :: CallTestVectorY :: CallGetProgramFromCache ::
     CallKernel (kernel_name_of use_fast) ::
     map (fun ia => CallSetArgument ia.1 ia.2)
       (if use_fast then fast_arguments n alpha x_buffer y_buffer
        else generic_arguments n alpha x_buffer x_offset x_inc y_buffer y_offset y_inc) ++
     [CallRunKernel (kernel_name_of use_fast) (launch_global db_ use_fast n)
        [db_at db_ "WGS"];
      CallFinish]) /\
  NoDup outcome.2.
Proof.
  subst outcome setup rk status use_fast.
  pose proof (run_script_prefix backend db_ n alpha x_buffer x_offset x_inc
                y_buffer y_offset y_inc) as Hpre.
  split; [exact Hpre|].
  destruct Hpre as [k Hk].
  pose proof (setup_calls_NoDup (use_fast_kernel db_ n x_offset x_inc y_offset y_inc)
                n alpha x_buffer x_offset x_inc y_buffer y_offset y_inc db_) as Hnd.
  rewrite Hk in Hnd. by apply NoDup_app in Hnd as [? _].
Qed.


(** X5.  When the length, the offsets and the increments all fit in [int],
    the kernel receives them unchanged: at the launch the bound arguments are
    the inputs themselves. *)
Theorem arguments_exact_within_int :
  0 <= n <= INT_MAX ->
  0 <= x_offset <= INT_MAX -> 0 <= x_inc <= INT_MAX ->
  0 <= y_offset <= INT_MAX -> 0 <= y_inc <= INT_MAX ->
  launched outcome.2 ->
  bound_arguments outcome.2 =
    if use_fast then
      [ (0%nat, ArgInt n); (1%nat, ArgScalar alpha);
        (2%nat, ArgMem (raw_handle x_buffer)); (3%nat, ArgMem (raw_handle y_buffer)) ]
    else
      [ (0%nat, ArgInt n); (1%nat, ArgScalar alpha);
        (2%nat, ArgMem (raw_handle x_buffer));
        (3%nat, ArgInt x_offset); (4%nat, ArgInt x_inc);
        (5%nat, ArgMem (raw_handle y_buffer));
        (6%nat, ArgInt y_offset); (7%nat, ArgInt y_inc) ].
Proof.
  subst outcome setup rk status use_fast.
  intros Hn Hxo Hxi Hyo Hyi (kernel_name & global & local & Hin).
  apply run_launched in Hin as [_ ->]. cbv zeta.
  assert (forall tail : list (Call T), bound_arguments tail = [] ->
            bound_arguments
              ((CallTestVectorX :: CallTestVectorY ::
                  setup_calls (use_fast_kernel db_ n x_offset x_inc y_offset y_inc)
                    n alpha x_buffer x_offset x_inc y_buffer y_offset y_inc) ++ tail) =
            if use_fast_kernel db_ n x_offset x_inc y_offset y_inc then
              [ (0%nat, ArgInt n); (1%nat, ArgScalar alpha);
                (2%nat, ArgMem (raw_handle x_buffer));
                (3%nat, ArgMem (raw_handle y_buffer)) ]
            else
              [ (0%nat, ArgInt n); (1%nat, ArgScalar alpha);
                (2%nat, ArgMem (raw_handle x_buffer));
                (3%nat, ArgInt x_offset); (4%nat, ArgInt x_inc);
                (5%nat, ArgMem (raw_handle y_buffer));
                (6%nat, ArgInt y_offset); (7%nat, ArgInt y_inc) ]) as Hbound.
  { intros tail Htail. rewrite <- !app_comm_cons, bound_arguments_script, Htail, app_nil_r.
    unfold fast_arguments, generic_arguments.
    rewrite !static_cast_int_small by (unfold INT_MIN, INT_MAX in *; lia).
    reflexivity. }
  repeat case_match; cbn [snd]; apply Hbound; reflexivity.
Qed.

(** X6.  Lengths that differ by a multiple of 2^32 are bound as the same
    kernel argument: whatever two invocations bind at position 0 for [n] and
    for [n + k * 2^32] is the same integer. *)
Theorem lengths_alias_modulo_2_32 (backend' : Backend T) (db_' : gmap string Z)
    (alpha' : T) (x_buffer' : Buffer) (x_offset' x_inc' : Z)
    (y_buffer' : Buffer) (y_offset' y_inc' : Z) (k w w' : Z) :
  @CallSetArgument T 0 (ArgInt w) ∈ outcome.2 ->
  @CallSetArgument T 0 (ArgInt w') ∈
    (run backend' db_' (n + k * 2 ^ 32) alpha' x_buffer' x_offset' x_inc'
       y_buffer' y_offset' y_inc').2 ->
  w = w'.
Proof.
  subst outcome setup rk status use_fast.
  assert (forall be db m a xb xo xi yb yo yi v,
            @CallSetArgument T 0 (ArgInt v) ∈ (run be db m a xb xo xi yb yo yi).2 ->
            v = static_cast_int m) as Hlength.
  { intros be db m a xb xo xi yb yo yi v Hin.
    destruct (run_script_prefix be db m a xb xo xi yb yo yi) as [tl Htl].
    assert (@CallSetArgument T 0 (ArgInt v) ∈
              (run be db m a xb xo xi yb yo yi).2 ++ tl) as Hin'
      by (apply elem_of_app; by left).
    rewrite <- Htl in Hin'. clear Hin Htl.
    assert ((0%nat, @ArgInt T v) ∈ bound_arguments
              (CallTestVectorX :: CallTestVectorY ::
                 setup_calls (use_fast_kernel db m xo xi yo yi) m a xb xo xi yb yo yi ++
                 [launch_call db (use_fast_kernel db m xo xi yo yi) m; CallFinish])) as Hb.
    { unfold bound_arguments. apply list_elem_of_omap. eexists. split; [exact Hin'|done]. }
    rewrite bound_arguments_script, app_nil_r in Hb.
    destruct (use_fast_kernel db m xo xi yo yi);
      unfold fast_arguments, generic_arguments in Hb;
      repeat (apply elem_of_cons in Hb as [Hb|Hb]);
      try (by apply elem_of_nil in Hb); by simplify_eq. }
  intros ->%Hlength ->%Hlength. symmetry. apply static_cast_int_periodic.
Qed.

(** X7.  With a positive length whose rounding up to a multiple of WGS*WPT
    is representable in [size_t] on the generic path, the launch has at least
    one full work-group and enough work-items for every element: the global
    size is at least WGS, and the global size times the elements per
    work-item (WPT*VW on the fast path, WPT on the generic path) is at least
    [n]. *)
Theorem launch_covers_all_elements (kernel_name : string) (global local : list Z) :
  tuned db_ ->
  0 < n ->
  (use_fast = false -> Ceil n (db_at db_ "WGS" * db_at db_ "WPT") < size_t_range) ->
  @CallRunKernel T kernel_name global local ∈ outcome.2 ->
  exists global_size,
    global = [global_size] /\
    local = [db_at db_ "WGS"] /\
    0 < db_at db_ "WGS" <= global_size /\
    n <= global_size *
           (if use_fast then db_at db_ "WPT" * db_at db_ "VW" else db_at db_ "WPT").
Proof.
  subst outcome setup rk status use_fast. intros Ht Hn Hrep Hin.
  apply run_launched in Hin as [Heq _]. cbv zeta in Heq.
  unfold launch_call, launch_global, size_t_div in Heq.
  rewrite (tuned_group db_ Ht), (tuned_thread db_ Ht) in Heq.
  destruct (use_fast_kernel db_ n x_offset x_inc y_offset y_inc) eqn:Hfast.
  - injection Heq as -> -> ->; eexists; (split; [reflexivity|]); (split; [reflexivity|]).
    apply (use_fast_kernel_legal db_ _ _ _ _ _ Ht) in Hfast as (_ & _ & _ & _ & [m Hm]).
    destruct Ht as (Hwgs & Hwpt & Hvw & Hfit).
    assert (CeilDiv n (db_at db_ "WPT" * db_at db_ "VW") = m * db_at db_ "WGS") as ->.
    { rewrite Hm.
      replace (m * (db_at db_ "WGS" * db_at db_ "WPT" * db_at db_ "VW"))
        with (m * db_at db_ "WGS" * (db_at db_ "WPT" * db_at db_ "VW")) by ring.
      apply CeilDiv_exact. nia. }
    assert (0 < m) by nia. split; nia.
  - specialize (Hrep eq_refl).
    destruct Ht as (Hwgs & Hwpt & Hvw & Hfit).
    pose proof (Ceil_bounds n (db_at db_ "WGS" * db_at db_ "WPT") ltac:(nia)) as Hceil.
    rewrite to_size_t_small in Heq by lia.
    injection Heq as -> -> ->; eexists; (split; [reflexivity|]); (split; [reflexivity|]).
    pose proof (CeilDiv_bounds n (db_at db_ "WGS" * db_at db_ "WPT") ltac:(nia)) as Hb.
    unfold Ceil. rewrite Z.mul_assoc, Z.quot_mul by lia.
    assert (0 < CeilDiv n (db_at db_ "WGS" * db_at db_ "WPT")) by nia.
    split; nia.
Qed.

End Conduct.

(** ** The further properties at concrete invocations *)

Lemma success_exactly_when_all_stages_pass_witness :
  (run sound_backend db_256 1024 one x_8k 0 1 y_8k 0 1).1 = Returned kSuccess /\
  last (run sound_backend db_256 1024 one x_8k 0 1 y_8k 0 1).2 = Some CallFinish.
Proof.
  destruct (success_exactly_when_all_stages_pass sound_backend db_256 1024 one
              x_8k 0 1 y_8k 0 1) as [Hiff Htrace].
  assert ((run sound_backend db_256 1024 one x_8k 0 1 y_8k 0 1).1 = Returned kSuccess)
    as Hsuccess.
  { apply Hiff. split; [lia|]. split; [reflexivity|]. split; [reflexivity|].
    split; [intros c _; reflexivity|reflexivity]. }
  split; [exact Hsuccess|]. rewrite (Htrace Hsuccess). reflexivity.
Defined.

Lemma finish_only_after_clean_launch_witness :
  launched (run failing_launch_backend db_256 1024 one x_8k 0 1 y_8k 0 1).2 /\
  ~ @CallFinish float ∈ (run failing_launch_backend db_256 1024 one x_8k 0 1 y_8k 0 1).2.
Proof.
  split.
  - exists "XaxpyFast", [256], [64]. vm_compute. repeat constructor.
  - intros Hin.
    apply (proj1 (finish_only_after_clean_launch failing_launch_backend db_256 1024 one
                    x_8k 0 1 y_8k 0 1)) in Hin as (_ & _ & Herr).
    discriminate Herr.
Defined.


Lemma arguments_exact_within_int_witness :
  launched (run sound_backend db_256 1000 one x_8k 3 2 y_8k 0 1).2 /\
  bound_arguments (run sound_backend db_256 1000 one x_8k 3 2 y_8k 0 1).2 =
    [ (0%nat, ArgInt 1000); (1%nat, ArgScalar one); (2%nat, ArgMem 1);
      (3%nat, ArgInt 3); (4%nat, ArgInt 2); (5%nat, ArgMem 2);
      (6%nat, ArgInt 0); (7%nat, ArgInt 1) ].
Proof.
  assert (launched (run sound_backend db_256 1000 one x_8k 3 2 y_8k 0 1).2) as Hl.
  { exists "Xaxpy", [512], [64]. vm_compute. repeat constructor. }
  split; [exact Hl|].
  exact (arguments_exact_within_int sound_backend db_256 1000 one x_8k 3 2 y_8k 0 1
           ltac:(unfold INT_MAX; lia) ltac:(unfold INT_MAX; lia)
           ltac:(unfold INT_MAX; lia) ltac:(unfold INT_MAX; lia)
           ltac:(unfold INT_MAX; lia) Hl).
Defined.

Lemma lengths_alias_modulo_2_32_witness :
  @CallSetArgument float 0 (ArgInt 1024) ∈
    (run sound_backend db_256 1024 one x_8k 0 1 y_8k 0 1).2 /\
  @CallSetArgument float 0 (ArgInt 1024) ∈
    (run sound_backend db_256 (1024 + 1 * 2 ^ 32) one
       {| raw_handle := 1; GetSize := 2 ^ 40 |} 0 1
       {| raw_handle := 2; GetSize := 2 ^ 40 |} 0 1).2 /\
  1024 = 1024.
Proof.
  assert (@CallSetArgument float 0 (ArgInt 1024) ∈
            (run sound_backend db_256 1024 one x_8k 0 1 y_8k 0 1).2) as Hin
    by (vm_compute; repeat constructor).
  assert (@CallSetArgument float 0 (ArgInt 1024) ∈
            (run sound_backend db_256 (1024 + 1 * 2 ^ 32) one
               {| raw_handle := 1; GetSize := 2 ^ 40 |} 0 1
               {| raw_handle := 2; GetSize := 2 ^ 40 |} 0 1).2) as Hin'
    by (vm_compute; repeat constructor).
  split; [exact Hin|]. split; [exact Hin'|].
  exact (lengths_alias_modulo_2_32 sound_backend db_256 1024 one x_8k 0 1 y_8k 0 1
           sound_backend db_256 one
           {| raw_handle := 1; GetSize := 2 ^ 40 |} 0 1
           {| raw_handle := 2; GetSize := 2 ^ 40 |} 0 1 1 1024 1024 Hin Hin').
Defined.

Lemma launch_covers_all_elements_witness :
  tuned db_256 /\ 0 < 1000 /\
  (use_fast_kernel db_256 1000 0 1 0 1 = false ->
     Ceil 1000 (db_at db_256 "WGS" * db_at db_256 "WPT") < size_t_range) /\
  @CallRunKernel float "Xaxpy" [512] [64] ∈
    (run sound_backend db_256 1000 one x_8k 0 1 y_8k 0 1).2 /\
  exists global_size, [512] = [global_size] /\ 1000 <= global_size * db_at db_256 "WPT".
Proof.
  assert (tuned db_256) as Ht by (vm_compute; repeat split).
  assert (@CallRunKernel float "Xaxpy" [512] [64] ∈
            (run sound_backend db_256 1000 one x_8k 0 1 y_8k 0 1).2) as Hin
    by (vm_compute; repeat constructor).
  assert (use_fast_kernel db_256 1000 0 1 0 1 = false ->
          Ceil 1000 (db_at db_256 "WGS" * db_at db_256 "WPT") < size_t_range) as Hrep
    by (intros _; reflexivity).
  destruct (launch_covers_all_elements sound_backend db_256 1000 one x_8k 0 1 y_8k 0 1
              "Xaxpy" [512] [64] Ht ltac:(lia) Hrep Hin)
    as (global_size & Hglobal & _ & _ & Hcover).
  split; [exact Ht|]. split; [lia|]. split; [exact Hrep|]. split; [exact Hin|].
  exists global_size. split; [exact Hglobal|exact Hcover].
Defined.
